(** * LeadCaptureForm: a shallow embedding of the lead-capture component

    The component of [src/components/LeadCaptureForm.tsx] is modelled as a
    set of handlers over an explicit component state.  Every call the
    handlers make to an imported function or to a state setter is logged,
    in program order, in a trace of effects; the state setters also update
    the state.  The one [await] of [handleSubmit] receives its outcome from
    the environment, and a handler runs to its end before the next event is
    handled. *)

From Stdlib Require Import String Ascii List Bool Arith NArith Lia.
From Stdlib Require Import Decimal DecimalString.
Import ListNotations.
Open Scope string_scope.
Open Scope list_scope.

(** ** JavaScript strings *)

Module JS.

(** A string stands for the UTF-8 encoding of a JavaScript string.

    [String.prototype.trim] strips the code points of WhiteSpace and
    LineTerminator: U+0009 to U+000D, U+0020, U+00A0, U+1680, U+2000 to
    U+200A, U+2028, U+2029, U+202F, U+205F, U+3000 and U+FEFF. *)

(** The three-byte encodings among them. *)
Definition three_byte_white_space (b1 b2 b3 : nat) : bool :=
  ((b1 =? 225) && (b2 =? 154) && (b3 =? 128))%nat
  || ((b1 =? 226) && (b2 =? 128)
      && (((128 <=? b3) && (b3 <=? 138)) || (b3 =? 168) || (b3 =? 169)
          || (b3 =? 175)))%nat
  || ((b1 =? 226) && (b2 =? 129) && (b3 =? 159))%nat
  || ((b1 =? 227) && (b2 =? 128) && (b3 =? 128))%nat
  || ((b1 =? 239) && (b2 =? 187) && (b3 =? 191))%nat.

(** Number of bytes of the white space code point a string starts with;
    0 when it starts with none. *)
Definition white_space_width (s : string) : nat :=
  match s with
  | String c1 r1 =>
      let b1 := nat_of_ascii c1 in
      if (((9 <=? b1) && (b1 <=? 13)) || (b1 =? 32))%nat then 1
      else
        match r1 with
        | String c2 r2 =>
            let b2 := nat_of_ascii c2 in
            if ((b1 =? 194) && (b2 =? 160))%nat then 2
            else
              match r2 with
              | String c3 _ =>
                  if three_byte_white_space b1 b2 (nat_of_ascii c3) then 3
                  else 0
              | EmptyString => 0
              end
        | EmptyString => 0
        end
  | EmptyString => 0
  end.

(** [trimStart], [inside] bytes of a white space code point being still to
    skip. *)
Fixpoint trimStart_from (inside : nat) (s : string) : string :=
  match s with
  | EmptyString => EmptyString
  | String c r =>
      match inside with
      | S k => trimStart_from k r
      | O =>
          match white_space_width s with
          | O => s
          | S k => trimStart_from k r
          end
      end
  end.

Definition trimStart (s : string) : string := trimStart_from 0 s.

(** The string, read from a point [inside] bytes before the end of a white
    space code point, holds white space only. *)
Fixpoint all_white_space_from (inside : nat) (s : string) : bool :=
  match s with
  | EmptyString => true
  | String c r =>
      match inside with
      | S k => all_white_space_from k r
      | O =>
          match white_space_width s with
          | O => false
          | S k => all_white_space_from k r
          end
      end
  end.

(** A string made of white space only; the empty string is one. *)
Definition all_white_space (s : string) : bool := all_white_space_from 0 s.

(** [trimEnd]: the string is cut where only white space follows. *)
Fixpoint trimEnd (s : string) : string :=
  match s with
  | EmptyString => EmptyString
  | String c r =>
      if all_white_space s then EmptyString else String c (trimEnd r)
  end.

Definition trim (s : string) : string := trimEnd (trimStart s).

(** Truthiness of a string: only the empty string is falsy. *)
Definition truthy (s : string) : bool :=
  match s with EmptyString => false | _ => true end.

(** Truthiness of a possibly undefined string. *)
Definition truthy_opt (o : option string) : bool :=
  match o with Some s => truthy s | None => false end.

(** [String(n)] for a list length. *)
Definition number_to_string (n : nat) : string :=
  NilZero.string_of_uint (Nat.to_uint n).

End JS.

(** ** Data model *)

(** The three keys of [formData] and [fieldStates]; every call site of
    [handleInputChange], [getFieldError] and [getFieldState] passes one of
    them. *)
Inductive Field := NameField | EmailField | IndustryField.

Definition key (f : Field) : string :=
  match f with
  | NameField => "name"
  | EmailField => "email"
  | IndustryField => "industry"
  end.

Module FormData.
Record t := mk { name : string; email : string; industry : string }.

(** [formData[field]] *)
Definition get (f : Field) (d : t) : string :=
  match f with
  | NameField => name d
  | EmailField => email d
  | IndustryField => industry d
  end.

(** [{ ...prev, [field]: value }] *)
Definition set (f : Field) (v : string) (d : t) : t :=
  match f with
  | NameField => mk v (email d) (industry d)
  | EmailField => mk (name d) v (industry d)
  | IndustryField => mk (name d) (email d) v
  end.

Definition empty : t := mk "" "" "".
End FormData.

Record FieldState := mkFieldState { touched : bool; valid : bool }.

Module FieldStates.
Record t := mk { name : FieldState; email : FieldState; industry : FieldState }.

Definition get (f : Field) (d : t) : FieldState :=
  match f with
  | NameField => name d
  | EmailField => email d
  | IndustryField => industry d
  end.

Definition set (f : Field) (v : FieldState) (d : t) : t :=
  match f with
  | NameField => mk v (email d) (industry d)
  | EmailField => mk (name d) v (industry d)
  | IndustryField => mk (name d) (email d) v
  end.

(** The value of [useState] on mount, of [resetForm] and of the success
    flow. *)
Definition untouched : t :=
  mk (mkFieldState false false) (mkFieldState false false)
     (mkFieldState false false).

(** The value [handleSubmit] stores before validating. *)
Definition all_touched : t :=
  mk (mkFieldState true false) (mkFieldState true false)
     (mkFieldState true false).
End FieldStates.

(** [ValidationError] of the validation library: a field name and a
    message. *)
Record ValidationError := mkError { field : string; message : string }.

Module Lead.
Record t := mk
  { name : string; email : string; industry : string; submitted_at : string }.
End Lead.

(** ** The lead store *)

Module LeadStore.

(** Modelled from the spec: the store of [@/lib/lead-store] is not part
    of the component's file.  The spec describes it as a boolean success
    flag together with an in-memory, process-local list of the leads
    collected since page load, which is not persisted. *)
Record t := mk { submitted : bool; sessionLeads : list Lead.t }.

(** Modelled from the spec: the store as it is when the page has just been
    loaded, nothing being persisted: no lead, and the form shown. *)
Definition initial : t := mk false [].

(** Modelled from the spec: [setSubmitted] toggles the boolean success
    flag. *)
Definition setSubmitted (b : bool) (st : t) : t := mk b (sessionLeads st).

(** Modelled from the spec: [addLead] appends an item to the
    session-scoped list. *)
Definition addLead (l : Lead.t) (st : t) : t :=
  mk (submitted st) (sessionLeads st ++ [l]).

End LeadStore.

(** ** Component state *)

Record State := mkState
  { formData : FormData.t;
    validationErrors : list ValidationError;
    fieldStates : FieldStates.t;
    isSubmitting : bool;
    store : LeadStore.t }.

Definition submitted (s : State) : bool := LeadStore.submitted (store s).
Definition sessionLeads (s : State) : list Lead.t :=
  LeadStore.sessionLeads (store s).

(** ** Effects *)

(** A toast of [sonner]: title, description and duration. *)
Record Toast := mkToast
  { title : string; description : string; duration : N }.

(** Calls to imported functions and to state setters. *)
Inductive Effect :=
| PreventDefault
| SetFormData (d : FormData.t)
| SetFieldStates (fs : FieldStates.t)
| SetValidationErrors (errs : list ValidationError)
| SetIsSubmitting (b : bool)
| ValidateLeadForm (d : FormData.t)
| Invoke (fn : string) (body : FormData.t)
| ConsoleError (msg : string) (err : string)
| ConsoleLog (msg : string)
| NewDate
| AddLead (l : Lead.t)
| ToastError (t : Toast)
| ToastSuccess (t : Toast)
| SetSubmitted (b : bool).

Definition Trace := list Effect.

(** What the awaited [supabase.functions.invoke] gives back: the promise
    resolves to an object whose [error] is null or an error, or it
    rejects. *)
Inductive InvokeOutcome :=
| Resolved (error : option string)
| Rejected (exn : string).

(** ** A monad for handlers

    A handler threads the component state, logs its effects and completes
    normally, by [return], or by a thrown exception. *)

Inductive Completion (A : Type) :=
| Normal (a : A)
| Return
| Throw (exn : string).
Arguments Normal {A} a.
Arguments Return {A}.
Arguments Throw {A} exn.

Definition M (A : Type) : Type := State -> Completion A * State * Trace.

Definition ret {A} (a : A) : M A := fun s => (Normal a, s, []).

Definition bind {A B} (m : M A) (k : A -> M B) : M B :=
  fun s =>
    match m s with
    | (Normal a, s1, t1) =>
        match k a s1 with (c, s2, t2) => (c, s2, t1 ++ t2) end
    | (Return, s1, t1) => (Return, s1, t1)
    | (Throw e, s1, t1) => (Throw e, s1, t1)
    end.

Notation "x <- m ;; k" := (bind m (fun x => k))
  (at level 61, m at next level, right associativity).
Notation "m ;; k" := (bind m (fun _ => k))
  (at level 61, right associativity).

(** [return;] *)
Definition return_ {A} : M A := fun s => (Return, s, []).

(** [try { body } catch (error) { handler error } finally { final }] *)
Definition try_catch_finally (body : M unit) (handler : string -> M unit)
    (final : M unit) : M unit :=
  fun s =>
    match body s with
    | (c, s1, t1) =>
        match
          match c with
          | Throw e => handler e s1
          | _ => (c, s1, [])
          end
        with
        | (c', s2, t2) =>
            match final s2 with
            | (Normal _, s3, t3) => (c', s3, t1 ++ t2 ++ t3)
            | (cf, s3, t3) => (cf, s3, t1 ++ t2 ++ t3)
            end
        end
    end.

(** Logs a call that leaves the component state alone. *)
Definition emit (e : Effect) : M unit := fun s => (Normal tt, s, [e]).

Definition setFormData (f : FormData.t -> FormData.t) : M unit :=
  fun s =>
    let d := f (formData s) in
    (Normal tt,
     mkState d (validationErrors s) (fieldStates s) (isSubmitting s) (store s),
     [SetFormData d]).

Definition setValidationErrors
    (f : list ValidationError -> list ValidationError) : M unit :=
  fun s =>
    let errs := f (validationErrors s) in
    (Normal tt,
     mkState (formData s) errs (fieldStates s) (isSubmitting s) (store s),
     [SetValidationErrors errs]).

Definition setFieldStates (f : FieldStates.t -> FieldStates.t) : M unit :=
  fun s =>
    let fs := f (fieldStates s) in
    (Normal tt,
     mkState (formData s) (validationErrors s) fs (isSubmitting s) (store s),
     [SetFieldStates fs]).

Definition setIsSubmitting (b : bool) : M unit :=
  fun s =>
    (Normal tt,
     mkState (formData s) (validationErrors s) (fieldStates s) b (store s),
     [SetIsSubmitting b]).

Definition setSubmitted (b : bool) : M unit :=
  fun s =>
    (Normal tt,
     mkState (formData s) (validationErrors s) (fieldStates s) (isSubmitting s)
       (LeadStore.setSubmitted b (store s)),
     [SetSubmitted b]).

Definition addLead (l : Lead.t) : M unit :=
  fun s =>
    (Normal tt,
     mkState (formData s) (validationErrors s) (fieldStates s) (isSubmitting s)
       (LeadStore.addLead l (store s)),
     [AddLead l]).

(** [await supabase.functions.invoke(fn, { body })]: the call is made, and
    the awaited promise yields its [error] or throws. *)
Definition invoke (fn : string) (body : FormData.t) (out : InvokeOutcome)
    : M (option string) :=
  fun s =>
    match out with
    | Resolved err => (Normal err, s, [Invoke fn body])
    | Rejected e => (Throw e, s, [Invoke fn body])
    end.

(** [new Date().toISOString()], the clock being read by the environment. *)
Definition newDate (now : string) : M string :=
  fun s => (Normal now, s, [NewDate]).

(** The state and the trace a handler leaves. *)
Definition run (m : M unit) (s : State) : State * Trace :=
  match m s with (_, s', t) => (s', t) end.

(** ** The component *)

Section Component.

(** The validation library [@/lib/validation] is imported by the
    component and is not part of its file: its three functions are
    parameters of the model. *)
Variable validateLeadForm : FormData.t -> list ValidationError.
Variable validateName : string -> bool.
Variable validateEmail : string -> bool.

(** [validationErrors.find(error => error.field === field)?.message] *)
Definition getFieldError (errs : list ValidationError) (fld : string)
    : option string :=
  option_map message (find (fun error => field error =? fld) errs).

Inductive FieldVisual := error_state | success_state | default_state.

Definition getFieldState (s : State) (f : Field) : FieldVisual :=
  let fieldState := FieldStates.get f (fieldStates s) in
  let hasError := JS.truthy_opt (getFieldError (validationErrors s) (key f)) in
  let hasValue :=
    (0 <? String.length (JS.trim (FormData.get f (formData s))))%nat in
  if hasError then error_state
  else if touched fieldState && hasValue && negb hasError then success_state
  else if touched fieldState && negb hasValue then error_state
  else default_state.

(** The pair [{ isValid, errorMessage }]. *)
Definition validateField (fld value : string) : bool * string :=
  if fld =? "name" then
    if negb (JS.truthy (JS.trim value)) then (false, "Name is required")
    else if negb (validateName value) then
      (false, "Name must be at least 2 characters")
    else (true, "")
  else if fld =? "email" then
    if negb (JS.truthy (JS.trim value)) then (false, "Email is required")
    else if negb (validateEmail value) then
      (false, "Please enter a valid email address")
    else (true, "")
  else if fld =? "industry" then
    if negb (JS.truthy (JS.trim value)) then
      (false, "Please select your industry")
    else (true, "")
  else (false, "").

(** The updater [handleInputChange] passes to [setValidationErrors] when
    the field is invalid: update or add the error of the field. *)
Definition update_or_add (fld errorMessage : string)
    (prev : list ValidationError) : list ValidationError :=
  match find (fun error => field error =? fld) prev with
  | Some _ =>
      map (fun error =>
             if field error =? fld then mkError (field error) errorMessage
             else error) prev
  | None => prev ++ [mkError fld errorMessage]
  end.

Definition handleInputChange (f : Field) (value : string) : M unit :=
  setFormData (FormData.set f value);;
  setFieldStates
    (fun prev =>
       FieldStates.set f
         (mkFieldState true (valid (FieldStates.get f prev))) prev);;
  let '(isValid, errorMessage) := validateField (key f) value in
  if isValid then
    setValidationErrors (filter (fun error => negb (field error =? key f)))
  else if JS.truthy errorMessage then
    setValidationErrors (update_or_add (key f) errorMessage)
  else ret tt.

Definition email_error_toast : Toast :=
  mkToast "Failed to send confirmation email"
    "Please try again or contact support if the problem persists." 5000%N.

Definition unexpected_error_toast : Toast :=
  mkToast "Something went wrong"
    "An unexpected error occurred. Please try again or contact support."
    5000%N.

Definition success_toast (d : FormData.t) : Toast :=
  mkToast "Welcome to the Innovation Community! 🚀"
    ("Hi " ++ FormData.name d
     ++ "! We've sent a personalized welcome email to " ++ FormData.email d
     ++ ". Check your inbox for exclusive insights about the "
     ++ FormData.industry d ++ " industry.")%string
    6000%N.

Definition validation_toast (errors : list ValidationError) : Toast :=
  mkToast "Please fix the form errors"
    ("Please correct the " ++ JS.number_to_string (length errors) ++ " error"
     ++ (if (1 <? length errors)%nat then "s" else "")
     ++ " above and try again.")%string
    4000%N.

(** [handleSubmit], closed over the [formData] of the render that
    installed it; [out] is what the awaited call yields and [now] what the
    clock shows when the lead is built. *)
Definition handleSubmit (formData : FormData.t) (out : InvokeOutcome)
    (now : string) : M unit :=
  emit PreventDefault;;
  setFieldStates (fun _ => FieldStates.all_touched);;
  emit (ValidateLeadForm formData);;
  let errors := validateLeadForm formData in
  setValidationErrors (fun _ => errors);;
  if (length errors =? 0)%nat then
    setIsSubmitting true;;
    try_catch_finally
      (emailError <-
         invoke "send-confirmation"
           (FormData.mk (FormData.name formData) (FormData.email formData)
              (FormData.industry formData)) out;;
       match emailError with
       | Some err =>
           emit (ConsoleError "Error sending confirmation email:" err);;
           emit (ToastError email_error_toast);;
           return_
       | None => ret tt
       end;;
       emit (ConsoleLog "Confirmation email sent successfully");;
       submitted_at <- newDate now;;
       let lead :=
         Lead.mk (FormData.name formData) (FormData.email formData)
           (FormData.industry formData) submitted_at in
       addLead lead;;
       emit (ToastSuccess (success_toast formData));;
       setSubmitted true;;
       setFormData (fun _ => FormData.empty);;
       setValidationErrors (fun _ => []);;
       setFieldStates (fun _ => FieldStates.untouched))
      (fun error =>
         emit (ConsoleError "Error submitting form:" error);;
         emit (ToastError unexpected_error_toast))
      (setIsSubmitting false)
  else
    emit (ToastError (validation_toast errors)).

Definition resetForm : M unit :=
  setFormData (fun _ => FormData.empty);;
  setValidationErrors (fun _ => []);;
  setFieldStates (fun _ => FieldStates.untouched);;
  setSubmitted false.

(** The effect run on mount: [setSubmitted(false)]. *)
Definition mount_effect : M unit := setSubmitted false.

(** The component state after [useState] and [useLeadStore] on mount,
    the store being the one of the page. *)
Definition mount_state (st : LeadStore.t) : State :=
  mkState FormData.empty [] FieldStates.untouched false st.

(** *** Rendering *)

Definition baseClasses : string :=
  "pl-10 h-12 bg-input border-border text-foreground placeholder:text-muted-foreground transition-smooth".

Definition getInputClassName (s : State) (f : Field) : string :=
  match getFieldState s f with
  | error_state =>
      (baseClasses
       ++ " border-destructive focus:border-destructive focus:shadow-[0_0_0_2px_hsl(0_84%_60%/0.2)]")%string
  | success_state =>
      (baseClasses
       ++ " border-green-500 focus:border-green-500 focus:shadow-[0_0_0_2px_hsl(142_76%_36%/0.2)]")%string
  | default_state =>
      (baseClasses ++ " focus:border-accent focus:shadow-glow")%string
  end.

Inductive Icon := AlertCircle | CheckCircle2.

Definition renderFieldIcon (s : State) (f : Field) : option Icon :=
  match getFieldState s f with
  | error_state => Some AlertCircle
  | success_state => Some CheckCircle2
  | default_state => None
  end.

(** One field of the form as it is drawn: its value, its class and icon,
    the two attributes and the two messages. *)
Record FieldView := mkFieldView
  { value : string;
    className : string;
    icon : option Icon;
    aria_describedby : bool;
    aria_invalid : bool;
    error_text : option string;
    looks_good : bool }.

Definition render_field (s : State) (f : Field) : FieldView :=
  let err := getFieldError (validationErrors s) (key f) in
  mkFieldView
    (FormData.get f (formData s))
    (getInputClassName s f)
    (renderFieldIcon s f)
    (JS.truthy_opt err)
    (match getFieldState s f with error_state => true | _ => false end)
    (if JS.truthy_opt err then err else None)
    (touched (FieldStates.get f (fieldStates s))
     && (0 <? String.length (FormData.get f (formData s)))%nat
     && negb (JS.truthy_opt err)).

Inductive View :=
| SuccessView (session_count : nat)
| FormView (name email industry : FieldView) (submit_disabled : bool)
    (sending : bool).

(** [disabled={isSubmitting || validationErrors.length > 0}] *)
Definition submit_disabled (s : State) : bool :=
  isSubmitting s || (0 <? length (validationErrors s))%nat.

Definition render (s : State) : View :=
  if submitted s then SuccessView (length (sessionLeads s))
  else
    FormView (render_field s NameField) (render_field s EmailField)
      (render_field s IndustryField) (submit_disabled s) (isSubmitting s).

(** *** Running the component *)

(** A submission as the form fires it: the handler installed by the last
    render runs on the state that render showed. *)
Definition submit (s : State) (out : InvokeOutcome) (now : string)
    : State * Trace :=
  run (handleSubmit (formData s) out now) s.

(** The component mounted on a store, its mount effect run. *)
Definition mounted (st : LeadStore.t) : State :=
  fst (run mount_effect (mount_state st)).

(** Modelled from the spec: a page load starts from the store's initial
    value, nothing being persisted. *)
Definition page_load : State := mounted LeadStore.initial.

(** Modelled from the spec: a page refresh is a page load; nothing of the
    state before it is kept. *)
Definition refresh (s : State) : State := page_load.

(** What the user, or the router, can do to a mounted component. *)
Inductive UIEvent :=
| Change (f : Field) (value : string)
| Submit (out : InvokeOutcome) (now : string)
| Reset
| Remount.

Definition step (s : State) (ev : UIEvent) : State * Trace :=
  match ev with
  | Change f value => run (handleInputChange f value) s
  | Submit out now => submit s out now
  | Reset => run resetForm s
  | Remount => run mount_effect (mount_state (store s))
  end.

Fixpoint exec (s : State) (evs : list UIEvent) : State * Trace :=
  match evs with
  | [] => (s, [])
  | ev :: evs' =>
      let '(s1, t1) := step s ev in
      let '(s2, t2) := exec s1 evs' in
      (s2, t1 ++ t2)
  end.

(** The states a mounted component can be in, whatever the store held when
    it was mounted. *)
Inductive reachable : State -> Prop :=
| reachable_mount st : reachable (mounted st)
| reachable_step s ev : reachable s -> reachable (fst (step s ev)).

End Component.

(** ** Reading traces *)

(** The remote calls of a trace. *)
Fixpoint invocations (t : Trace) : list (string * FormData.t) :=
  match t with
  | [] => []
  | Invoke fn body :: t' => (fn, body) :: invocations t'
  | _ :: t' => invocations t'
  end.

(** The leads handed to [addLead]. *)
Fixpoint added_leads (t : Trace) : list Lead.t :=
  match t with
  | [] => []
  | AddLead l :: t' => l :: added_leads t'
  | _ :: t' => added_leads t'
  end.

(** The values written to the success flag. *)
Fixpoint flag_writes (t : Trace) : list bool :=
  match t with
  | [] => []
  | SetSubmitted b :: t' => b :: flag_writes t'
  | _ :: t' => flag_writes t'
  end.

(** The toasts shown, errors and successes alike. *)
Definition is_toast (e : Effect) : bool :=
  match e with ToastError _ | ToastSuccess _ => true | _ => false end.

Definition toasts (t : Trace) : Trace := filter is_toast t.

Definition is_validate (e : Effect) : bool :=
  match e with ValidateLeadForm _ => true | _ => false end.

Definition is_invoke (e : Effect) : bool :=
  match e with Invoke _ _ => true | _ => false end.

Definition is_toggle (e : Effect) : bool :=
  match e with SetSubmitted true => true | _ => false end.

Definition is_append (e : Effect) : bool :=
  match e with AddLead _ => true | _ => false end.

(** The [console.error] of the [catch] block. *)
Definition is_catch (e : Effect) : bool :=
  match e with
  | ConsoleError msg _ => msg =? "Error submitting form:"
  | _ => false
  end.

(** The [console.error] of the branch on the returned [error]. *)
Definition is_returned_error (e : Effect) : bool :=
  match e with
  | ConsoleError msg _ => msg =? "Error sending confirmation email:"
  | _ => false
  end.

(** The toast of the branch taken when validation finds errors. *)
Definition is_validation_toast (e : Effect) : bool :=
  match e with
  | ToastError t => title t =? "Please fix the form errors"
  | _ => false
  end.

Definition success_flow_ran (t : Trace) : bool := existsb is_toggle t.
Definition catch_ran (t : Trace) : bool := existsb is_catch t.
Definition returned_error_branch_ran (t : Trace) : bool :=
  existsb is_returned_error t.
Definition validation_branch_ran (t : Trace) : bool :=
  existsb is_validation_toast t.

(** Position of the first effect satisfying [p]. *)
Fixpoint index_of (p : Effect -> bool) (t : Trace) : option nat :=
  match t with
  | [] => None
  | e :: t' => if p e then Some 0 else option_map S (index_of p t')
  end.

(** Both effects occur, the first [p] before the first [q]. *)
Definition before (p q : Effect -> bool) (t : Trace) : bool :=
  match index_of p t, index_of q t with
  | Some i, Some j => (i <? j)%nat
  | _, _ => false
  end.

(** ** An instance of the validation library

    The component's file does not contain [@/lib/validation].  The
    instance below applies, field by field, the rules the component itself
    spells out in [validateField]; it serves to run the model on concrete
    forms. *)

Definition sample_validateName (value : string) : bool :=
  (2 <=? String.length (JS.trim value))%nat.

Fixpoint contains_at (s : string) : bool :=
  match s with
  | EmptyString => false
  | String c s' => (nat_of_ascii c =? 64)%nat || contains_at s'
  end.

Definition sample_validateEmail (value : string) : bool := contains_at value.

Definition sample_field_errors (d : FormData.t) (f : Field)
    : list ValidationError :=
  let '(isValid, errorMessage) :=
    validateField sample_validateName sample_validateEmail (key f)
      (FormData.get f d) in
  if isValid then [] else [mkError (key f) errorMessage].

Definition sample_validateLeadForm (d : FormData.t) : list ValidationError :=
  sample_field_errors d NameField ++ sample_field_errors d EmailField
  ++ sample_field_errors d IndustryField.

(** The state reached from a page load by filling the three fields. *)
Definition filled : State :=
  fst (exec sample_validateLeadForm sample_validateName sample_validateEmail
         (page_load)
         [Change NameField "Ada Lovelace"; Change EmailField "ada@example.org";
          Change IndustryField "technology"]).

Definition lead_of (d : FormData.t) (now : string) : Lead.t :=
  Lead.mk (FormData.name d) (FormData.email d) (FormData.industry d) now.

(** The state reached by typing: the error of the email field is added
    and then rewritten in place, that of the name field is added and then
    removed. *)
Definition typing : State :=
  fst (exec sample_validateLeadForm sample_validateName sample_validateEmail
         page_load
         [Change EmailField " "; Change NameField "A"; Change EmailField "a";
          Change NameField "Ad"]).

(** The [validationErrors] that [handleInputChange] leaves. *)
Definition next_errors (validateName validateEmail : string -> bool)
    (f : Field) (value : string) (prev : list ValidationError)
    : list ValidationError :=
  let '(isValid, errorMessage) :=
    validateField validateName validateEmail (key f) value in
  if isValid then filter (fun error => negb (field error =? key f)) prev
  else if JS.truthy errorMessage then update_or_add (key f) errorMessage prev
  else prev.

Definition is_success_view (v : View) : bool :=
  match v with SuccessView _ => true | FormView _ _ _ _ _ => false end.

Definition is_form_view (v : View) : bool :=
  match v with SuccessView _ => false | FormView _ _ _ _ _ => true end.

(** What every reachable state satisfies: no field state is marked valid,
    and a field that was never touched is empty. *)
Definition fields_consistent (s : State) : Prop :=
  forall f,
    valid (FieldStates.get f (fieldStates s)) = false
    /\ (touched (FieldStates.get f (fieldStates s)) = false ->
        FormData.get f (formData s) = "").

(** At most one entry per field name. *)
Definition one_per_field (errs : list ValidationError) : Prop :=
  NoDup (map field errs).

(** The order of the four steps of a successful submission: validation,
    the remote call, the flag, the list. *)
Definition flag_then_list_order (t : Trace) : bool :=
  before is_validate is_invoke t && before is_invoke is_toggle t
  && before is_toggle is_append t.

(** The order with the list updated before the flag. *)
Definition list_then_flag_order (t : Trace) : bool :=
  before is_validate is_invoke t && before is_invoke is_append t
  && before is_append is_toggle t.

(** The reading of the failure handling under which, once the form is
    valid, the success flow is abandoned by the [catch] block only. *)
Definition only_catch_decides
    (validateLeadForm : FormData.t -> list ValidationError) : Prop :=
  forall s out now,
    validateLeadForm (formData s) = [] ->
    success_flow_ran (snd (submit validateLeadForm s out now)) = false ->
    catch_ran (snd (submit validateLeadForm s out now)) = true.

(** A blank value: a tabulation, a no-break space (U+00A0), an ideographic
    space (U+3000) and a space. *)
Definition blank_value : string :=
  String "009"
    (String "194" (String "160" (String "227" (String "128" (String "128" " "))))).







(** An entry the form can show: its message is not empty and its field is
    one of the three fields of the form. *)
Definition displayable (e : ValidationError) : Prop :=
  JS.truthy (message e) = true /\ exists f, field e = key f.

(** A field as the freshly mounted form draws it. *)
Definition pristine_field : FieldView :=
  mkFieldView ""
    (baseClasses ++ " focus:border-accent focus:shadow-glow")%string
    None false false None false.

(** A form with a stale error on the name, a blank email and no industry
    chosen yet. *)
Definition stale : State :=
  mkState (FormData.mk "Ada" "  " "")
    [mkError "name" "Name is required"; mkError "email" "Email is required"]
    (FieldStates.mk (mkFieldState true false) (mkFieldState true false)
       (mkFieldState false false))
    false (LeadStore.mk false []).

(** * Properties *)

Ltac unfold_submit :=
  unfold submit, run, handleSubmit, bind, try_catch_finally.

Ltac unfold_change :=
  unfold run, handleInputChange, next_errors, bind.

Ltac unfold_step := cbn [step].

Ltac unfold_exec := cbn [exec].

Section Properties.

Variable validateLeadForm : FormData.t -> list ValidationError.
Variable validateName : string -> bool.
Variable validateEmail : string -> bool.

Local Abbreviation submit := (submit validateLeadForm).
Local Abbreviation step := (step validateLeadForm validateName validateEmail).
Local Abbreviation exec := (exec validateLeadForm validateName validateEmail).
Local Abbreviation reachable :=
  (reachable validateLeadForm validateName validateEmail).
Local Abbreviation handleInputChange :=
  (handleInputChange validateName validateEmail).

(** ** The four runs of [handleSubmit] *)

Lemma formData_eta (d : FormData.t) :
  FormData.mk (FormData.name d) (FormData.email d) (FormData.industry d) = d.
Proof. destruct d; reflexivity. Qed.

Lemma submit_invalid s out now :
  validateLeadForm (formData s) <> [] ->
  submit s out now =
    (mkState (formData s) (validateLeadForm (formData s))
       FieldStates.all_touched (isSubmitting s) (store s),
     [PreventDefault; SetFieldStates FieldStates.all_touched;
      ValidateLeadForm (formData s);
      SetValidationErrors (validateLeadForm (formData s));
      ToastError (validation_toast (validateLeadForm (formData s)))]).
Proof.
  intros H. unfold_submit.
  destruct (validateLeadForm (formData s)) as [|e errs] eqn:E;
    [congruence|]. reflexivity.
Qed.

Lemma submit_success s now :
  validateLeadForm (formData s) = [] ->
  submit s (Resolved None) now =
    (mkState FormData.empty [] FieldStates.untouched false
       (LeadStore.setSubmitted true
          (LeadStore.addLead (lead_of (formData s) now) (store s))),
     [PreventDefault; SetFieldStates FieldStates.all_touched;
      ValidateLeadForm (formData s); SetValidationErrors [];
      SetIsSubmitting true; Invoke "send-confirmation" (formData s);
      ConsoleLog "Confirmation email sent successfully"; NewDate;
      AddLead (lead_of (formData s) now);
      ToastSuccess (success_toast (formData s)); SetSubmitted true;
      SetFormData FormData.empty; SetValidationErrors [];
      SetFieldStates FieldStates.untouched; SetIsSubmitting false]).
Proof.
  intros H. unfold_submit. rewrite H; cbn.
  rewrite formData_eta. reflexivity.
Qed.

Lemma submit_returned_error s err now :
  validateLeadForm (formData s) = [] ->
  submit s (Resolved (Some err)) now =
    (mkState (formData s) [] FieldStates.all_touched false (store s),
     [PreventDefault; SetFieldStates FieldStates.all_touched;
      ValidateLeadForm (formData s); SetValidationErrors [];
      SetIsSubmitting true; Invoke "send-confirmation" (formData s);
      ConsoleError "Error sending confirmation email:" err;
      ToastError email_error_toast; SetIsSubmitting false]).
Proof.
  intros H. unfold_submit. rewrite H; cbn.
  rewrite formData_eta. reflexivity.
Qed.

Lemma submit_thrown s exn now :
  validateLeadForm (formData s) = [] ->
  submit s (Rejected exn) now =
    (mkState (formData s) [] FieldStates.all_touched false (store s),
     [PreventDefault; SetFieldStates FieldStates.all_touched;
      ValidateLeadForm (formData s); SetValidationErrors [];
      SetIsSubmitting true; Invoke "send-confirmation" (formData s);
      ConsoleError "Error submitting form:" exn;
      ToastError unexpected_error_toast; SetIsSubmitting false]).
Proof.
  intros H. unfold_submit. rewrite H; cbn.
  rewrite formData_eta. reflexivity.
Qed.

(** ** One remote call per submission *)

(** C1.  A submission calls the backend function [send-confirmation]
    exactly once, with the submitted name, email and industry, when the
    form passes validation, whatever the call then yields; it does not call
    it at all when validation finds errors.  No submission calls it
    twice. *)
Theorem submit_invokes_once s out now :
  invocations (snd (submit s out now)) =
    if (length (validateLeadForm (formData s)) =? 0)%nat
    then [("send-confirmation", formData s)]
    else [].
Proof.
  destruct (validateLeadForm (formData s)) as [|e errs] eqn:E.
  - destruct out as [[err|]|exn].
    + rewrite submit_returned_error by exact E. reflexivity.
    + rewrite submit_success by exact E. reflexivity.
    + rewrite submit_thrown by exact E. reflexivity.
  - rewrite submit_invalid by (rewrite E; discriminate).
    reflexivity.
Qed.

(** ** The lead of a successful submission *)

(** C2.  When the form passes validation and the email call succeeds,
    [addLead] is called exactly once, with the lead made of the submitted
    name, email and industry and of the clock's reading, and the session
    store afterwards is the store before with that one lead appended. *)
Theorem submit_success_appends_one_lead s now :
  validateLeadForm (formData s) = [] ->
  added_leads (snd (submit s (Resolved None) now)) =
    [Lead.mk (FormData.name (formData s)) (FormData.email (formData s))
       (FormData.industry (formData s)) now]
  /\ sessionLeads (fst (submit s (Resolved None) now)) =
       sessionLeads s
       ++ [Lead.mk (FormData.name (formData s)) (FormData.email (formData s))
             (FormData.industry (formData s)) now].
Proof.
  intros H. rewrite submit_success by exact H. split; reflexivity.
Qed.

(** ** Validation errors stop the submission *)

(** C3.  When validation finds at least one error, the submission calls
    neither the backend function nor [addLead] nor [setSubmitted]; the
    store, and so the session list and the success flag, is as before; the
    errors found become the component's [validationErrors], which the form
    shows, and the error toast counting them is the only toast. *)
Theorem submit_invalid_stops s out now :
  validateLeadForm (formData s) <> [] ->
  invocations (snd (submit s out now)) = []
  /\ added_leads (snd (submit s out now)) = []
  /\ flag_writes (snd (submit s out now)) = []
  /\ store (fst (submit s out now)) = store s
  /\ validationErrors (fst (submit s out now)) =
       validateLeadForm (formData s)
  /\ toasts (snd (submit s out now)) =
       [ToastError (validation_toast (validateLeadForm (formData s)))].
Proof.
  intros H. rewrite submit_invalid by exact H. cbn. repeat split.
Qed.

(** ** The session store *)

Lemma added_leads_app t1 t2 :
  added_leads (t1 ++ t2) = added_leads t1 ++ added_leads t2.
Proof.
  induction t1 as [|e t1 IH]; [reflexivity|].
  destruct e; cbn; rewrite IH; reflexivity.
Qed.

(** What [handleInputChange] does to the state, and that it touches
    neither the store nor the network. *)
Lemma handleInputChange_run s f value :
  fst (run (handleInputChange f value) s) =
    mkState (FormData.set f value (formData s))
      (next_errors validateName validateEmail f value (validationErrors s))
      (FieldStates.set f
         (mkFieldState true (valid (FieldStates.get f (fieldStates s))))
         (fieldStates s))
      (isSubmitting s) (store s)
  /\ added_leads (snd (run (handleInputChange f value) s)) = []
  /\ flag_writes (snd (run (handleInputChange f value) s)) = []
  /\ invocations (snd (run (handleInputChange f value) s)) = [].
Proof.
  unfold_change.
  destruct (validateField validateName validateEmail (key f) value)
    as [[|] msg]; cbn; [repeat split|].
  destruct (JS.truthy msg); cbn; repeat split.
Qed.

Lemma step_sessionLeads s ev :
  sessionLeads (fst (step s ev)) =
    sessionLeads s ++ added_leads (snd (step s ev)).
Proof.
  destruct ev as [f value|out now| |]; unfold_step.
  - destruct (handleInputChange_run s f value) as (-> & -> & _).
    unfold sessionLeads; cbn. now rewrite app_nil_r.
  - destruct (validateLeadForm (formData s)) as [|e errs] eqn:E.
    + destruct out as [[err|]|exn].
      * rewrite submit_returned_error by exact E.
        unfold sessionLeads; cbn. now rewrite app_nil_r.
      * rewrite submit_success by exact E. reflexivity.
      * rewrite submit_thrown by exact E.
        unfold sessionLeads; cbn. now rewrite app_nil_r.
    + rewrite submit_invalid by (rewrite E; discriminate).
      unfold sessionLeads; cbn. now rewrite app_nil_r.
  - unfold sessionLeads; cbn. now rewrite app_nil_r.
  - unfold sessionLeads; cbn. now rewrite app_nil_r.
Qed.

Lemma exec_sessionLeads evs : forall s,
  sessionLeads (fst (exec s evs)) =
    sessionLeads s ++ added_leads (snd (exec s evs)).
Proof.
  induction evs as [|ev evs IH]; intros s; unfold_exec.
  - cbn. now rewrite app_nil_r.
  - pose proof (step_sessionLeads s ev) as Hstep.
    destruct (step s ev) as [s1 t1]; cbn [fst snd] in Hstep.
    specialize (IH s1). destruct (exec s1 evs) as [s2 t2];
      cbn [fst snd] in IH |- *.
    now rewrite IH, Hstep, added_leads_app, app_assoc.
Qed.

(** C4.  The session store is a list held in memory only: a page refresh
    leaves it empty whatever it held before, and after any run of the
    component from a page load or refresh (input changes, submissions with
    any outcome, resets, remounts) it holds exactly the leads handed to
    [addLead] during that run, in order. *)
Theorem session_store_holds_leads_since_page_load s evs :
  sessionLeads (refresh s) = []
  /\ sessionLeads (fst (exec (refresh s) evs)) =
       added_leads (snd (exec (refresh s) evs)).
Proof.
  split; [reflexivity|]. now rewrite exec_sessionLeads.
Qed.

(** ** The two views *)

(** C5.  A render shows the success view exactly when [submitted] is true
    and the form view exactly when it is false; a view is one or the other
    and never both; and on mount the flag is reset to false. *)
Theorem render_two_views :
  (forall s, is_success_view (render s) = submitted s)
  /\ (forall s, is_form_view (render s) = negb (submitted s))
  /\ (forall v : View, is_form_view v = negb (is_success_view v))
  /\ (forall st, submitted (mounted st) = false).
Proof.
  repeat split.
  - intros s. unfold render. destruct (submitted s); reflexivity.
  - intros s. unfold render. destruct (submitted s); reflexivity.
  - intros v. destruct v; reflexivity.
Qed.

(** ** Failure handling *)

(** C6, as amended.  Three branches stop the success flow, not one: the
    test on the validation errors before the call, the test on the error
    the call returns, inside the [try] block, and the [catch] block for an
    exception.  Each runs in exactly its own case, and the success flow
    runs exactly when validation finds no error and the call returns
    without error. *)
Theorem submit_failure_branches s out now :
  (success_flow_ran (snd (submit s out now)) = true <->
     validateLeadForm (formData s) = [] /\ out = Resolved None)
  /\ (validation_branch_ran (snd (submit s out now)) = true <->
        validateLeadForm (formData s) <> [])
  /\ (returned_error_branch_ran (snd (submit s out now)) = true <->
        validateLeadForm (formData s) = []
        /\ exists err, out = Resolved (Some err))
  /\ (catch_ran (snd (submit s out now)) = true <->
        validateLeadForm (formData s) = [] /\ exists exn, out = Rejected exn).
Proof.
  destruct (validateLeadForm (formData s)) as [|e errs] eqn:E.
  - destruct out as [[err|]|exn].
    + rewrite submit_returned_error by exact E. cbn.
      repeat split; try discriminate; try congruence; eauto;
        intros (_ & H); try discriminate; destruct H; discriminate.
    + rewrite submit_success by exact E. cbn.
      repeat split; try discriminate; try congruence;
        intros (_ & H); destruct H; discriminate.
    + rewrite submit_thrown by exact E. cbn.
      repeat split; try discriminate; try congruence; eauto;
        intros (_ & H); try discriminate; destruct H; discriminate.
  - rewrite submit_invalid by (rewrite E; discriminate). cbn.
    repeat split; try discriminate; try congruence;
      intros (H & _); discriminate.
Qed.

(** ** Order of the effects *)

(** C7, as amended.  On a submission that succeeds the form is validated,
    then the remote function is called, then the lead is appended to the
    session list, and only then is the success flag set to true. *)
Theorem submit_success_order s now :
  validateLeadForm (formData s) = [] ->
  list_then_flag_order (snd (submit s (Resolved None) now)) = true.
Proof.
  intros H. rewrite submit_success by exact H. reflexivity.
Qed.

(** ** The submitting phase ends *)

(** C9.  A submission that sets [isSubmitting] to true ends with
    [isSubmitting] false, whether the call succeeded, returned an error or
    threw: resetting it is the last thing the handler does, and the submit
    button is enabled afterwards. *)
Theorem submitting_phase_ends s out now :
  In (SetIsSubmitting true) (snd (submit s out now)) ->
  isSubmitting (fst (submit s out now)) = false
  /\ last (snd (submit s out now)) PreventDefault = SetIsSubmitting false
  /\ submit_disabled (fst (submit s out now)) = false.
Proof.
  destruct (validateLeadForm (formData s)) as [|e errs] eqn:E.
  - intros _. destruct out as [[err|]|exn].
    + rewrite submit_returned_error by exact E. repeat split.
    + rewrite submit_success by exact E. repeat split.
    + rewrite submit_thrown by exact E. repeat split.
  - rewrite submit_invalid by (rewrite E; discriminate). cbn.
    intros H. repeat (destruct H as [H|H]; [discriminate|]). destruct H.
Qed.

(** ** Reachable states *)

Lemma reachable_exec evs : forall s,
  reachable s -> reachable (fst (exec s evs)).
Proof.
  induction evs as [|ev evs IH]; intros s Hs; unfold_exec; [exact Hs|].
  pose proof (reachable_step _ _ _ s ev Hs) as Hstep.
  destruct (step s ev) as [s1 t1]. specialize (IH s1 Hstep).
  destruct (exec s1 evs) as [s2 t2]. exact IH.
Qed.

(** The state a submission leaves, by cases. *)
Lemma submit_state s out now :
  fst (submit s out now) =
    match validateLeadForm (formData s), out with
    | [], Resolved None =>
        mkState FormData.empty [] FieldStates.untouched false
          (LeadStore.setSubmitted true
             (LeadStore.addLead (lead_of (formData s) now) (store s)))
    | [], _ => mkState (formData s) [] FieldStates.all_touched false (store s)
    | errs, _ =>
        mkState (formData s) errs FieldStates.all_touched (isSubmitting s)
          (store s)
    end.
Proof.
  destruct (validateLeadForm (formData s)) as [|e errs] eqn:E.
  - destruct out as [[err|]|exn].
    + now rewrite submit_returned_error.
    + now rewrite submit_success.
    + now rewrite submit_thrown.
  - rewrite submit_invalid by (rewrite E; discriminate). now rewrite E.
Qed.

Lemma step_fields_consistent s ev :
  fields_consistent s -> fields_consistent (fst (step s ev)).
Proof.
  intros H. destruct ev as [f value|out now| |]; unfold_step.
  - destruct (handleInputChange_run s f value) as (-> & _).
    intros f'. specialize (H f'). destruct f, f'; cbn in *;
      try exact H; split; try discriminate; apply H.
  - rewrite submit_state.
    destruct (validateLeadForm (formData s)) as [|e errs];
      [destruct out as [[err|]|exn]|];
      intros f'; destruct f'; cbn; split; try discriminate; reflexivity.
  - intros f'; destruct f'; cbn; split; reflexivity.
  - intros f'; destruct f'; cbn; split; reflexivity.
Qed.

Lemma reachable_fields_consistent s : reachable s -> fields_consistent s.
Proof.
  induction 1 as [|s ev _ IH].
  - intros f; destruct f; cbn; split; reflexivity.
  - now apply step_fields_consistent.
Qed.

(** In a consistent state whose three fields are filled, every field is
    already marked as [handleSubmit] marks it. *)
Lemma consistent_filled_all_touched s :
  fields_consistent s ->
  FormData.name (formData s) <> "" ->
  FormData.email (formData s) <> "" ->
  FormData.industry (formData s) <> "" ->
  fieldStates s = FieldStates.all_touched.
Proof.
  intros H Hn He Hi.
  pose proof (H NameField) as [Vn Tn].
  pose proof (H EmailField) as [Ve Te].
  pose proof (H IndustryField) as [Vi Ti].
  destruct (fieldStates s) as [[tn vn] [te ve] [ti vi]]; cbn in *.
  subst vn ve vi.
  destruct tn; [|now elim Hn; apply Tn].
  destruct te; [|now elim He; apply Te].
  destruct ti; [|now elim Hi; apply Ti].
  reflexivity.
Qed.

(** ** A failed email call *)

(** Where the validation library reports an error for a form with an
    empty field, a failed email call on a reachable state changes nothing
    at all: every field of a form that passes validation is then already
    marked as touched. *)
Lemma failed_email_changes_nothing_if_fields_required s out now :
  (forall d, validateLeadForm d = [] ->
     FormData.name d <> "" /\ FormData.email d <> ""
     /\ FormData.industry d <> "") ->
  reachable s ->
  validateLeadForm (formData s) = [] ->
  out <> Resolved None ->
  sessionLeads (fst (submit s out now)) = sessionLeads s
  /\ submitted (fst (submit s out now)) = submitted s
  /\ formData (fst (submit s out now)) = formData s
  /\ fieldStates (fst (submit s out now)) = fieldStates s
  /\ (toasts (snd (submit s out now)) = [ToastError email_error_toast]
      \/ toasts (snd (submit s out now)) = [ToastError unexpected_error_toast])
  /\ (submit_disabled s = false -> fst (submit s out now) = s).
Proof.
  intros Hreq Hs Hvalid Hout.
  destruct (Hreq _ Hvalid) as (Hn & He & Hi).
  pose proof (consistent_filled_all_touched s
                (reachable_fields_consistent s Hs) Hn He Hi) as Hfs.
  assert (Hsame : submit_disabled s = false ->
                  mkState (formData s) [] FieldStates.all_touched false
                    (store s) = s).
  { unfold submit_disabled. intros Hd.
    apply orb_false_iff in Hd as [Hsub Hlen].
    destruct s as [d errs fs sub st]; cbn in *. subst fs sub.
    destruct errs; [reflexivity|discriminate]. }
  destruct out as [[err|]|exn]; [| congruence |].
  - rewrite submit_returned_error by exact Hvalid. cbn.
    repeat split; auto.
  - rewrite submit_thrown by exact Hvalid. cbn.
    repeat split; auto.
Qed.


(** ** One validation error per field *)






Lemma submit_validationErrors s out now :
  validationErrors (fst (submit s out now)) = validateLeadForm (formData s).
Proof.
  rewrite submit_state.
  destruct (validateLeadForm (formData s)) as [|e errs];
    [destruct out as [[err|]|exn]|]; reflexivity.
Qed.



End Properties.

(** * The properties on concrete forms *)

Example trim_spaces : JS.trim (String "009" "  Ada Lovelace ") = "Ada Lovelace".
Proof. reflexivity. Qed.

Example trim_no_break_space :
  JS.trim
    (String "194" (String "160" ("Ada" ++ String "226" (String "128" (String "131" "")))%string))
  = "Ada".
Proof. reflexivity. Qed.

Example trim_keeps_inner_space : JS.trim " Ada  Lovelace " = "Ada  Lovelace".
Proof. reflexivity. Qed.

Example validateField_blank_name :
  validateField sample_validateName sample_validateEmail "name" "  " =
    (false, "Name is required").
Proof. reflexivity. Qed.

Example validateField_short_name :
  validateField sample_validateName sample_validateEmail "name" "A" =
    (false, "Name must be at least 2 characters").
Proof. reflexivity. Qed.

Example validateField_unknown_field :
  validateField sample_validateName sample_validateEmail "phone" "1" =
    (false, "").
Proof. reflexivity. Qed.

Example typing_errors :
  validationErrors typing =
    [mkError "email" "Please enter a valid email address"].
Proof. reflexivity. Qed.

Example typing_view :
  getFieldState typing NameField = success_state
  /\ getFieldState typing EmailField = error_state
  /\ getFieldState typing IndustryField = default_state
  /\ submit_disabled typing = true.
Proof. repeat split. Qed.

Example empty_form_toast :
  toasts (snd (submit sample_validateLeadForm page_load (Resolved None) "")) =
    [ToastError
       (mkToast "Please fix the form errors"
          "Please correct the 3 errors above and try again." 4000)].
Proof. reflexivity. Qed.

Example success_view_counts_leads :
  render
    (fst (submit sample_validateLeadForm filled (Resolved None)
            "2025-01-01T00:00:00.000Z")) = SuccessView 1.
Proof. reflexivity. Qed.

Lemma sample_requires_fields d :
  sample_validateLeadForm d = [] ->
  FormData.name d <> "" /\ FormData.email d <> "" /\ FormData.industry d <> "".
Proof.
  unfold sample_validateLeadForm. intros H.
  apply app_eq_nil in H as [Hn H]. apply app_eq_nil in H as [He Hi].
  destruct d as [n e i]; cbn in *.
  repeat split; intros ->; discriminate.
Qed.



Lemma filled_reachable :
  reachable sample_validateLeadForm sample_validateName sample_validateEmail
    filled.
Proof. apply reachable_exec. constructor. Qed.

(** The filled form is sent and the call succeeds at the given instant: one
    lead. *)
Lemma submit_success_appends_one_lead_witness :
  sample_validateLeadForm (formData filled) = []
  /\ sessionLeads
       (fst (submit sample_validateLeadForm filled (Resolved None)
               "2025-01-01T00:00:00.000Z")) =
     [Lead.mk "Ada Lovelace" "ada@example.org" "technology"
        "2025-01-01T00:00:00.000Z"].
Proof.
  split; [reflexivity|].
  apply (proj2 (submit_success_appends_one_lead sample_validateLeadForm filled
                  "2025-01-01T00:00:00.000Z" eq_refl)).
Defined.

(** An empty form is submitted: three errors, nothing sent. *)
Lemma submit_invalid_stops_witness :
  sample_validateLeadForm (formData page_load) <> []
  /\ invocations
       (snd (submit sample_validateLeadForm page_load (Resolved None) "")) = []
  /\ length
       (validationErrors
          (fst (submit sample_validateLeadForm page_load (Resolved None) "")))
     = 3.
Proof.
  assert (H : sample_validateLeadForm (formData page_load) <> [])
    by (vm_compute; discriminate).
  split; [exact H|].
  destruct (submit_invalid_stops sample_validateLeadForm page_load
              (Resolved None) "" H) as (Hi & _ & _ & _ & He & _).
  split; [exact Hi|]. rewrite He. reflexivity.
Defined.

(** C6, the claim as stated fails: the filled form is sent and the call
    returns an error without throwing; the success flow does not run, and
    neither does the [catch] block. *)
Lemma returned_error_stops_without_catch :
  ~ only_catch_decides sample_validateLeadForm.
Proof.
  intros H.
  specialize (H filled (Resolved (Some "boom")) "2025-01-01T00:00:00.000Z"
                eq_refl eq_refl).
  discriminate H.
Qed.

(** C7, the claim as stated fails: on the successful submission of the
    filled form the lead is appended before the flag is set, not after. *)
Lemma lead_appended_before_flag :
  flag_then_list_order
    (snd (submit sample_validateLeadForm filled (Resolved None)
            "2025-01-01T00:00:00.000Z")) = false
  /\ before is_append is_toggle
       (snd (submit sample_validateLeadForm filled (Resolved None)
               "2025-01-01T00:00:00.000Z")) = true.
Proof. split; reflexivity. Qed.

Lemma submit_success_order_witness :
  sample_validateLeadForm (formData filled) = []
  /\ list_then_flag_order
       (snd (submit sample_validateLeadForm filled (Resolved None)
               "2025-01-01T00:00:00.000Z")) = true.
Proof.
  split; [reflexivity|].
  apply (submit_success_order sample_validateLeadForm filled
           "2025-01-01T00:00:00.000Z" eq_refl).
Defined.

(** On the filled form, reached under a library that requires the three
    fields, a call that throws leaves the state as it was. *)
Example failed_email_on_filled_form :
  fst (submit sample_validateLeadForm filled (Rejected "network down") "")
  = filled.
Proof.
  apply (failed_email_changes_nothing_if_fields_required
           sample_validateLeadForm sample_validateName sample_validateEmail
           filled (Rejected "network down") "" sample_requires_fields
           filled_reachable eq_refl);
    [discriminate|reflexivity].
Qed.



Lemma submitting_phase_ends_witness :
  In (SetIsSubmitting true)
    (snd (submit sample_validateLeadForm filled (Resolved (Some "boom")) ""))
  /\ isSubmitting
       (fst (submit sample_validateLeadForm filled (Resolved (Some "boom")) ""))
     = false.
Proof.
  assert (H : In (SetIsSubmitting true)
                (snd (submit sample_validateLeadForm filled
                        (Resolved (Some "boom")) "")))
    by (vm_compute; tauto).
  split; [exact H|].
  apply (submitting_phase_ends sample_validateLeadForm filled
           (Resolved (Some "boom")) "" H).
Defined.



(** * Further properties of the handlers and of rendering *)

Section Behaviour.

Variable validateLeadForm : FormData.t -> list ValidationError.
Variable validateName : string -> bool.
Variable validateEmail : string -> bool.

Local Abbreviation submit := (submit validateLeadForm).
Local Abbreviation exec := (exec validateLeadForm validateName validateEmail).
Local Abbreviation reachable :=
  (reachable validateLeadForm validateName validateEmail).
Local Abbreviation verdict := (validateField validateName validateEmail).
Local Abbreviation change f value s :=
  (fst (run (handleInputChange validateName validateEmail f value) s)).

(** ** Strings *)

Lemma truthy_length s : JS.truthy s = (0 <? String.length s)%nat.
Proof. destruct s; reflexivity. Qed.

Lemma truthy_nonempty s : JS.truthy s = true <-> s <> "".
Proof. destruct s; cbn; split; congruence. Qed.

Lemma trimStart_all_white_space s : forall inside,
  JS.all_white_space_from inside s = true -> JS.trimStart_from inside s = "".
Proof.
  induction s as [|c s IH]; intros inside; [reflexivity|].
  cbn [JS.all_white_space_from JS.trimStart_from].
  destruct inside as [|k]; [|apply IH].
  destruct (JS.white_space_width (String c s)); [discriminate|apply IH].
Qed.

Lemma trim_all_white_space s : JS.all_white_space s = true -> JS.trim s = "".
Proof.
  intros H. unfold JS.trim, JS.trimStart.
  now rewrite (trimStart_all_white_space s 0 H).
Qed.

Lemma key_eqb f f' : (key f =? key f') = true <-> f = f'.
Proof. destruct f, f'; cbn; split; congruence. Qed.

Lemma key_eqb_refl f : (key f =? key f) = true.
Proof. now apply key_eqb. Qed.

Lemma key_eqb_neq f f' : f <> f' -> (key f =? key f') = false.
Proof.
  intros H. destruct (key f =? key f') eqn:E; [|reflexivity].
  now apply key_eqb in E.
Qed.

(** ** Looking an error up *)

Lemma getFieldError_None errs fld :
  getFieldError errs fld = None <-> ~ In fld (map field errs).
Proof.
  unfold getFieldError. induction errs as [|e errs IH]; cbn.
  - split; [intros _ []|reflexivity].
  - destruct (field e =? fld) eqn:E; cbn.
    + apply String.eqb_eq in E. split; [discriminate|].
      intros H. elim H. now left.
    + apply String.eqb_neq in E. rewrite IH. split.
      * intros H [H'|H']; [contradiction|now apply H].
      * intros H H'. apply H. now right.
Qed.

(** X1.  [getFieldError] is undefined exactly for the field names that
    have no entry in the list. *)
Theorem getFieldError_undefined_iff errs fld :
  getFieldError errs fld = None <-> ~ In fld (map field errs).
Proof. apply getFieldError_None. Qed.

(** X2.  When the list has one entry per field, [getFieldError] gives the
    message of whichever entry is asked for by its field name. *)
Theorem getFieldError_finds_entry errs e :
  one_per_field errs ->
  In e errs ->
  getFieldError errs (field e) = Some (message e).
Proof.
  unfold one_per_field, getFieldError.
  induction errs as [|e' errs IH]; cbn; intros Hnd Hin; [contradiction|].
  inversion Hnd as [|? ? Hnotin Hrest]; subst.
  destruct Hin as [->|Hin].
  - now rewrite String.eqb_refl.
  - destruct (field e' =? field e) eqn:E; [|now apply IH].
    apply String.eqb_eq in E. elim Hnotin. rewrite E. now apply in_map.
Qed.

(** ** The verdict of [validateField] *)

(** X3.  A value made of white space only, the empty value included, is
    reported as missing for each of the three fields, whatever
    [validateName] and [validateEmail] would say of it. *)
Theorem validateField_blank_is_required value :
  JS.all_white_space value = true ->
  validateField validateName validateEmail "name" value = (false, "Name is required")
  /\ validateField validateName validateEmail "email" value = (false, "Email is required")
  /\ validateField validateName validateEmail "industry" value = (false, "Please select your industry").
Proof.
  intros H. unfold validateField; cbn.
  rewrite (trim_all_white_space _ H). repeat split.
Qed.

Lemma validateField_shape f value :
  fst (verdict (key f) value) = negb (JS.truthy (snd (verdict (key f) value)))
  /\ (fst (verdict (key f) value) = true ->
      JS.truthy (JS.trim value) = true).
Proof.
  destruct f; unfold validateField; cbn;
    destruct (JS.truthy (JS.trim value)); cbn; auto;
    try (destruct (validateName value)); try (destruct (validateEmail value));
    cbn; auto; split; auto; discriminate.
Qed.

(** X4.  For the three fields of the form [validateField] gives a message
    exactly when the value is invalid, and a value it accepts is not
    blank; for any other field name it gives neither validity nor message,
    so that [handleInputChange] would leave the errors alone. *)
Theorem validateField_verdict :
  (forall f value,
     fst (validateField validateName validateEmail (key f) value) = negb (JS.truthy (snd (validateField validateName validateEmail (key f) value)))
     /\ (fst (validateField validateName validateEmail (key f) value) = true ->
         JS.truthy (JS.trim value) = true))
  /\ (forall fld value,
        (forall f, fld <> key f) -> validateField validateName validateEmail fld value = (false, "")).
Proof.
  split; [exact validateField_shape|].
  intros fld value H. unfold validateField.
  rewrite (proj2 (String.eqb_neq fld "name") (H NameField)).
  rewrite (proj2 (String.eqb_neq fld "email") (H EmailField)).
  rewrite (proj2 (String.eqb_neq fld "industry") (H IndustryField)).
  reflexivity.
Qed.

(** ** The list of errors under [handleInputChange] *)

Lemma find_app {A} (p : A -> bool) l1 l2 :
  find p (l1 ++ l2) =
    match find p l1 with Some x => Some x | None => find p l2 end.
Proof.
  induction l1 as [|x l1 IH]; cbn; [reflexivity|].
  destruct (p x); [reflexivity|exact IH].
Qed.

Lemma find_map_same {A} (p : A -> bool) (g : A -> A) l :
  (forall x, p (g x) = p x) ->
  find p (map g l) = option_map g (find p l).
Proof.
  intros H. induction l as [|x l IH]; cbn; [reflexivity|].
  rewrite H. destruct (p x); [reflexivity|exact IH].
Qed.

Lemma map_unmatched {A} (p : A -> bool) (g : A -> A) l :
  (forall x, p x = false -> g x = x) ->
  find p l = None -> map g l = l.
Proof.
  intros H F. induction l as [|x l IH]; cbn in *; [reflexivity|].
  destruct (p x) eqn:E; [discriminate|]. now rewrite (H x E), IH.
Qed.

Lemma filter_twice {A} (p : A -> bool) l : filter p (filter p l) = filter p l.
Proof.
  induction l as [|x l IH]; cbn; [reflexivity|].
  destruct (p x) eqn:E; cbn; [rewrite E|]; now rewrite ?IH.
Qed.

Lemma getFieldError_removed fld errs :
  getFieldError (filter (fun error => negb (field error =? fld)) errs) fld
  = None.
Proof.
  apply getFieldError_None. intros Hin.
  apply in_map_iff in Hin as (e & He & Hin).
  apply filter_In in Hin as [_ Hneq].
  rewrite He, String.eqb_refl in Hneq. discriminate.
Qed.

Lemma getFieldError_removed_other fld fld' errs :
  fld' <> fld ->
  getFieldError (filter (fun error => negb (field error =? fld)) errs) fld'
  = getFieldError errs fld'.
Proof.
  intros Hne. unfold getFieldError. induction errs as [|e errs IH]; cbn;
    [reflexivity|].
  destruct (field e =? fld) eqn:E; cbn.
  - apply String.eqb_eq in E.
    assert ((field e =? fld') = false) as ->
      by (apply String.eqb_neq; congruence).
    exact IH.
  - destruct (field e =? fld'); [reflexivity|exact IH].
Qed.

Lemma getFieldError_updated fld msg errs :
  getFieldError (update_or_add fld msg errs) fld = Some msg.
Proof.
  unfold getFieldError, update_or_add.
  destruct (find (fun error => field error =? fld) errs) as [e|] eqn:F.
  - rewrite find_map_same, F.
    + apply find_some in F as [_ F]. cbn. now rewrite F.
    + intros x. destruct (field x =? fld) eqn:E; cbn; now rewrite E.
  - rewrite find_app, F. cbn. now rewrite String.eqb_refl.
Qed.

Lemma getFieldError_updated_other fld fld' msg errs :
  fld' <> fld ->
  getFieldError (update_or_add fld msg errs) fld' = getFieldError errs fld'.
Proof.
  intros Hne. unfold getFieldError, update_or_add.
  destruct (find (fun error => field error =? fld) errs) as [e|] eqn:F.
  - clear F. induction errs as [|x errs IH]; cbn; [reflexivity|].
    destruct (field x =? fld) eqn:E; cbn.
    + apply String.eqb_eq in E.
      assert ((field x =? fld') = false) as ->
        by (apply String.eqb_neq; congruence).
      exact IH.
    + destruct (field x =? fld'); [reflexivity|exact IH].
  - rewrite find_app. cbn.
    assert ((fld =? fld') = false) as -> by (apply String.eqb_neq; congruence).
    now destruct (find (fun error => field error =? fld') errs).
Qed.

Lemma update_or_add_twice fld msg errs :
  update_or_add fld msg (update_or_add fld msg errs)
  = update_or_add fld msg errs.
Proof.
  pose proof (getFieldError_updated fld msg errs) as Hfound.
  unfold getFieldError in Hfound.
  unfold update_or_add at 1.
  destruct (find (fun error => field error =? fld) (update_or_add fld msg errs))
    as [e'|]; [clear Hfound|discriminate].
  unfold update_or_add.
  destruct (find (fun error => field error =? fld) errs) as [e|] eqn:F.
  - rewrite map_map. apply map_ext. intros x.
    destruct (field x =? fld) eqn:E; cbn; now rewrite E.
  - rewrite map_app. cbn. rewrite String.eqb_refl. f_equal.
    apply (map_unmatched (fun error => field error =? fld)); [|exact F].
    intros x E. now rewrite E.
Qed.

Lemma next_errors_twice f value errs :
  next_errors validateName validateEmail f value
    (next_errors validateName validateEmail f value errs)
  = next_errors validateName validateEmail f value errs.
Proof.
  unfold next_errors. destruct (verdict (key f) value) as [[|] msg].
  - apply filter_twice.
  - destruct (JS.truthy msg); [apply update_or_add_twice|reflexivity].
Qed.

(** The error of the edited field after [handleInputChange], by the
    verdict on the new value. *)
Lemma next_errors_verdict f value errs :
  getFieldError (next_errors validateName validateEmail f value errs) (key f)
  = if fst (verdict (key f) value) then None
    else Some (snd (verdict (key f) value)).
Proof.
  destruct (validateField_shape f value) as [Hshape _].
  unfold next_errors. destruct (verdict (key f) value) as [[|] msg];
    cbn in *.
  - apply getFieldError_removed.
  - destruct (JS.truthy msg); [|discriminate].
    apply getFieldError_updated.
Qed.

Lemma next_errors_other f f' value errs :
  f' <> f ->
  getFieldError (next_errors validateName validateEmail f value errs) (key f')
  = getFieldError errs (key f').
Proof.
  intros Hne.
  assert (Hkey : key f' <> key f)
    by (intros H; apply Hne; apply key_eqb; rewrite H; apply String.eqb_refl).
  unfold next_errors. destruct (verdict (key f) value) as [[|] msg].
  - now apply getFieldError_removed_other.
  - destruct (JS.truthy msg); [now apply getFieldError_updated_other|].
    reflexivity.
Qed.

(** ** What an edit does *)

Lemma change_state s f value :
  change f value s =
    mkState (FormData.set f value (formData s))
      (next_errors validateName validateEmail f value (validationErrors s))
      (FieldStates.set f
         (mkFieldState true (valid (FieldStates.get f (fieldStates s))))
         (fieldStates s))
      (isSubmitting s) (store s).
Proof. apply (handleInputChange_run validateName validateEmail s f value). Qed.

(** X5.  After [handleInputChange] the error of the edited field is the
    verdict of [validateField] on the new value: none if the value is
    valid, its message otherwise, whatever the list held before. *)
Theorem handleInputChange_sets_field_error s f value :
  getFieldError (validationErrors (fst (run (handleInputChange validateName validateEmail f value) s))) (key f)
  = if fst (validateField validateName validateEmail (key f) value) then None
    else Some (snd (validateField validateName validateEmail (key f) value)).
Proof. rewrite change_state. apply next_errors_verdict. Qed.

(** X6.  Editing a field leaves every other field as it was: its value,
    its touched mark, its error, and so the whole of what is drawn for
    it. *)
Theorem handleInputChange_leaves_other_fields s f f' value :
  f' <> f ->
  FormData.get f' (formData (fst (run (handleInputChange validateName validateEmail f value) s))) = FormData.get f' (formData s)
  /\ FieldStates.get f' (fieldStates (fst (run (handleInputChange validateName validateEmail f value) s)))
     = FieldStates.get f' (fieldStates s)
  /\ getFieldError (validationErrors (fst (run (handleInputChange validateName validateEmail f value) s))) (key f')
     = getFieldError (validationErrors s) (key f')
  /\ render_field (fst (run (handleInputChange validateName validateEmail f value) s)) f' = render_field s f'.
Proof.
  intros Hne. rewrite change_state.
  assert (Hd : FormData.get f' (FormData.set f value (formData s))
               = FormData.get f' (formData s))
    by (destruct f, f'; try reflexivity; now elim Hne).
  assert (Hf : FieldStates.get f'
                 (FieldStates.set f
                    (mkFieldState true
                       (valid (FieldStates.get f (fieldStates s))))
                    (fieldStates s))
               = FieldStates.get f' (fieldStates s))
    by (destruct f, f'; try reflexivity; now elim Hne).
  pose proof (next_errors_other f f' value (validationErrors s) Hne) as He.
  repeat split; try assumption.
  unfold render_field, getInputClassName, renderFieldIcon, getFieldState.
  cbn [formData validationErrors fieldStates].
  now rewrite Hd, Hf, He.
Qed.

(** X7.  After [handleInputChange] the edited field is drawn as a success
    if [validateField] accepts the new value and as an error if it does
    not; it is never left in the default state. *)
Theorem handleInputChange_field_state s f value :
  getFieldState (fst (run (handleInputChange validateName validateEmail f value) s)) f
  = if fst (validateField validateName validateEmail (key f) value) then success_state else error_state.
Proof.
  pose proof (next_errors_verdict f value (validationErrors s)) as He.
  destruct (validateField_shape f value) as [Hshape Hvalue].
  rewrite change_state. unfold getFieldState.
  cbn [formData validationErrors fieldStates] in *. rewrite He.
  assert (Hd : forall d, FormData.get f (FormData.set f value d) = value)
    by (intros d; destruct f; reflexivity).
  assert (Ht : touched
                 (FieldStates.get f
                    (FieldStates.set f
                       (mkFieldState true
                          (valid (FieldStates.get f (fieldStates s))))
                       (fieldStates s))) = true)
    by (destruct f; reflexivity).
  rewrite Hd, Ht.
  destruct (fst (verdict (key f) value)); cbn in *.
  - specialize (Hvalue eq_refl).
    destruct (JS.trim value); [discriminate|reflexivity].
  - destruct (JS.truthy (snd (verdict (key f) value)));
      [reflexivity|discriminate].
Qed.

(** X8.  [handleInputChange] stays inside the form: it calls neither the
    backend nor [addLead] nor [setSubmitted], shows no toast, and leaves
    the store and [isSubmitting] as they were. *)
Theorem handleInputChange_is_local s f value :
  invocations (snd (run (handleInputChange validateName validateEmail f value) s))
  = []
  /\ added_leads
       (snd (run (handleInputChange validateName validateEmail f value) s)) = []
  /\ flag_writes
       (snd (run (handleInputChange validateName validateEmail f value) s)) = []
  /\ toasts
       (snd (run (handleInputChange validateName validateEmail f value) s)) = []
  /\ store (fst (run (handleInputChange validateName validateEmail f value) s)) = store s
  /\ isSubmitting (fst (run (handleInputChange validateName validateEmail f value) s)) = isSubmitting s.
Proof.
  rewrite change_state.
  destruct (handleInputChange_run validateName validateEmail s f value)
    as (_ & Ha & Hw & Hi).
  repeat split; try assumption.
  unfold_change.
  destruct (verdict (key f) value) as [[|] msg]; cbn; [reflexivity|].
  destruct (JS.truthy msg); reflexivity.
Qed.

(** X9.  Reporting the same value twice is the same as reporting it once:
    [handleInputChange] is idempotent on the component state. *)
Theorem handleInputChange_idempotent s f value :
  fst (run (handleInputChange validateName validateEmail f value)
         (fst (run (handleInputChange validateName validateEmail f value) s)))
  = fst (run (handleInputChange validateName validateEmail f value) s).
Proof.
  rewrite !change_state. cbn [formData validationErrors fieldStates
                                isSubmitting store].
  rewrite next_errors_twice. f_equal.
  - destruct f; reflexivity.
  - destruct f; reflexivity.
Qed.

(** ** Clearing the errors *)

Lemma next_errors_valid f value errs :
  fst (verdict (key f) value) = true ->
  next_errors validateName validateEmail f value errs
  = filter (fun error => negb (field error =? key f)) errs.
Proof.
  unfold next_errors. destruct (verdict (key f) value) as [[|] msg]; cbn;
    [reflexivity|discriminate].
Qed.

Lemma exec_cons_state s ev evs :
  fst (exec s (ev :: evs))
  = fst (exec (fst (step validateLeadForm validateName validateEmail s ev))
           evs).
Proof.
  unfold_exec.
  destruct (step validateLeadForm validateName validateEmail s ev) as [s1 t1].
  cbn [fst]. now destruct (exec s1 evs).
Qed.

(** X10.  When every entry of the list is about one of the three fields,
    entering a valid value in each of the three fields empties the list,
    so that only a submission under way keeps the submit button
    disabled. *)
Theorem valid_edits_clear_errors s vn ve vi :
  Forall (fun e => exists f, field e = key f) (validationErrors s) ->
  fst (validateField validateName validateEmail "name" vn) = true ->
  fst (validateField validateName validateEmail "email" ve) = true ->
  fst (validateField validateName validateEmail "industry" vi) = true ->
  validationErrors
    (fst (exec s [Change NameField vn; Change EmailField ve;
                  Change IndustryField vi])) = []
  /\ submit_disabled
       (fst (exec s [Change NameField vn; Change EmailField ve;
                     Change IndustryField vi])) = isSubmitting s.
Proof.
  intros Hkeys Hn He Hi.
  rewrite !exec_cons_state. unfold_exec. unfold_step. cbn [fst].
  rewrite !change_state. unfold submit_disabled.
  cbn [formData validationErrors fieldStates isSubmitting store].
  rewrite (next_errors_valid NameField vn) by exact Hn.
  rewrite (next_errors_valid EmailField ve) by exact He.
  rewrite (next_errors_valid IndustryField vi) by exact Hi.
  assert (Hnil : filter (fun error => negb (field error =? key IndustryField))
                   (filter (fun error => negb (field error =? key EmailField))
                      (filter (fun error => negb (field error =? key NameField))
                         (validationErrors s))) = []).
  { induction Hkeys as [|e errs [f Hf] _ IH]; [reflexivity|].
    destruct f; cbn in Hf, IH |- *; repeat (rewrite Hf; cbn); exact IH. }
  rewrite Hnil. split; [reflexivity|apply orb_false_r].
Qed.

(** ** The form after a submission that did not succeed *)

(** X11.  After a submission stopped by validation, or whose email call
    failed, no field is left in the default state: each is drawn either as
    an error or as a success.  When validation stopped it, the submit
    button is disabled. *)
Theorem unsuccessful_submit_marks_every_field s out now f :
  validateLeadForm (formData s) <> [] \/ out <> Resolved None ->
  getFieldState (fst (submit s out now)) f <> default_state
  /\ (validateLeadForm (formData s) <> [] ->
      submit_disabled (fst (submit s out now)) = true).
Proof.
  intros H. rewrite submit_state.
  assert (Hstate : forall errs sub,
            getFieldState
              (mkState (formData s) errs FieldStates.all_touched sub (store s))
              f <> default_state).
  { intros errs sub. unfold getFieldState.
    cbn [formData validationErrors fieldStates].
    assert (touched (FieldStates.get f FieldStates.all_touched) = true) as ->
      by (destruct f; reflexivity).
    destruct (JS.truthy_opt (getFieldError errs (key f)));
      [discriminate|].
    destruct (0 <? String.length (JS.trim (FormData.get f (formData s))))%nat;
      discriminate. }
  destruct (validateLeadForm (formData s)) as [|e errs] eqn:E.
  - destruct H as [H|H]; [congruence|].
    destruct out as [[err|]|exn]; try congruence;
      (split; [apply Hstate|congruence]).
  - split; [apply Hstate|]. intros _. unfold submit_disabled. cbn.
    apply orb_true_r.
Qed.

(** ** What is drawn for a field *)

(** X12.  A field is drawn as a success exactly when its "looks good"
    message is shown and its value is not blank.  The message alone does
    not suffice: it is shown for a touched field holding white space only
    and no error, which is drawn as an error. *)
Theorem success_state_iff_looks_good s f :
  (getFieldState s f = success_state
   <-> looks_good (render_field s f) = true
       /\ JS.trim (FormData.get f (formData s)) <> "")
  /\ (looks_good (render_field s f) = true ->
      JS.trim (FormData.get f (formData s)) = "" ->
      getFieldState s f = error_state).
Proof.
  unfold render_field, getFieldState. cbn [looks_good].
  set (err := JS.truthy_opt (getFieldError (validationErrors s) (key f))).
  set (tch := touched (FieldStates.get f (fieldStates s))).
  destruct (FormData.get f (formData s)) as [|c v].
  - change (JS.trim "") with "". split.
    + split; [destruct err, tch; discriminate|intros [_ H]; congruence].
    + destruct err, tch; cbn; intros H; try discriminate; reflexivity.
  - change (0 <? String.length (String c v))%nat with true.
    set (t := JS.trim (String c v)).
    destruct err, tch, t; cbn; split;
      try (intros H; try discriminate; reflexivity);
      split; intros H;
      try discriminate; try (destruct H; congruence);
      try reflexivity; split; [reflexivity|discriminate].
Qed.

(** X13.  The marks of a field agree with one another: the input refers
    to the error paragraph through [aria-describedby] exactly when that
    paragraph is drawn; it is [aria-invalid] exactly when the alert icon is
    drawn, which is when the field is in the error state; an error text
    always comes with the error state, and never with the "looks good"
    message. *)
Theorem field_marks_agree s f :
  (aria_describedby (render_field s f) = true
   <-> error_text (render_field s f) <> None)
  /\ (aria_invalid (render_field s f) = true
      <-> icon (render_field s f) = Some AlertCircle)
  /\ (aria_invalid (render_field s f) = true
      <-> getFieldState s f = error_state)
  /\ (error_text (render_field s f) <> None ->
      aria_invalid (render_field s f) = true)
  /\ (error_text (render_field s f) <> None ->
      looks_good (render_field s f) = false).
Proof.
  unfold render_field, renderFieldIcon.
  cbn [aria_describedby error_text aria_invalid icon looks_good].
  assert (Herr : JS.truthy_opt (getFieldError (validationErrors s) (key f))
                 = true -> getFieldState s f = error_state).
  { unfold getFieldState. now intros ->. }
  destruct (JS.truthy_opt (getFieldError (validationErrors s) (key f)))
    eqn:T.
  - rewrite (Herr eq_refl).
    destruct (getFieldError (validationErrors s) (key f)); [|discriminate].
    repeat split; try reflexivity; try discriminate.
    intros _. now rewrite andb_false_r.
  - clear Herr. destruct (getFieldState s f);
      repeat split; try reflexivity; try discriminate; try congruence.
Qed.

(** ** Reset and success *)

(** X14.  [resetForm], run while no submission is under way, leaves the
    component as a fresh mount on the same store: the session leads are
    kept and the form is drawn empty, with no mark on any field and the
    submit button enabled. *)
Theorem resetForm_is_fresh_mount s :
  isSubmitting s = false ->
  fst (run resetForm s) = mounted (store s)
  /\ sessionLeads (fst (run resetForm s)) = sessionLeads s
  /\ render (fst (run resetForm s))
     = FormView pristine_field pristine_field pristine_field false false.
Proof.
  intros H. destruct s as [d errs fs sub st]; cbn in H; subst sub.
  repeat split.
Qed.

(** X15.  The success view shown after a successful submission counts the
    lead just added: its number is one more than the number of leads the
    session held before. *)
Theorem success_view_counts_the_lead s now :
  validateLeadForm (formData s) = [] ->
  render (fst (submit s (Resolved None) now))
  = SuccessView (S (length (sessionLeads s))).
Proof.
  intros H. rewrite submit_success by exact H. unfold render. cbn.
  unfold sessionLeads. rewrite length_app. cbn. f_equal. lia.
Qed.

(** ** Over whole runs *)

Lemma invocations_app t1 t2 :
  invocations (t1 ++ t2) = invocations t1 ++ invocations t2.
Proof.
  induction t1 as [|e t1 IH]; [reflexivity|].
  destruct e; cbn; rewrite IH; reflexivity.
Qed.







Lemma next_errors_displayable f value errs :
  Forall displayable errs ->
  Forall displayable (next_errors validateName validateEmail f value errs).
Proof.
  intros H. unfold next_errors.
  destruct (verdict (key f) value) as [[|] msg].
  - apply Forall_forall. intros e He. apply filter_In in He as [He _].
    now apply (proj1 (Forall_forall _ _) H).
  - destruct (JS.truthy msg) eqn:T; [|exact H].
    unfold update_or_add.
    destruct (find (fun error => field error =? key f) errs).
    + apply Forall_forall. intros e He.
      apply in_map_iff in He as (e0 & <- & He0).
      pose proof (proj1 (Forall_forall _ _) H e0 He0) as [Hm Hf].
      destruct (field e0 =? key f); split; auto.
    + apply Forall_app. split; [exact H|].
      constructor; [|constructor]. split; [exact T|now exists f].
Qed.

(** X17.  Provided [validateLeadForm] only reports errors with a message
    and about one of the three fields: in every reachable state each entry
    of the list is of that kind, and whenever the list is not empty, so
    that the submit button is disabled, the form shows an error text under
    at least one field. *)
Theorem errors_are_visible s :
  (forall d, Forall displayable (validateLeadForm d)) ->
  reachable s ->
  Forall displayable (validationErrors s)
  /\ (validationErrors s <> [] ->
      submit_disabled s = true
      /\ exists f msg, error_text (render_field s f) = Some msg).
Proof.
  intros Hlib Hs.
  assert (Hall : Forall displayable (validationErrors s)).
  { induction Hs as [st|s ev _ IH]; [constructor|].
    destruct ev as [f value|out now| |]; unfold_step.
    - rewrite change_state. now apply next_errors_displayable.
    - rewrite submit_validationErrors. apply Hlib.
    - constructor.
    - constructor. }
  split; [exact Hall|]. intros Hne. split.
  - unfold submit_disabled. destruct (validationErrors s);
      [congruence|apply orb_true_r].
  - destruct (validationErrors s) as [|e errs] eqn:E; [congruence|].
    inversion Hall as [|? ? [_ [f Hf]] _]; subst.
    exists f. unfold render_field. cbn [error_text]. rewrite E.
    destruct (getFieldError (e :: errs) (key f)) as [msg|] eqn:G.
    + exists msg. unfold getFieldError in G.
      destruct (find (fun error => field error =? key f) (e :: errs))
        as [e'|] eqn:F; [|discriminate].
      apply find_some in F as [Hin _]. cbn in G. injection G as <-.
      destruct (proj1 (Forall_forall _ _) Hall e' Hin) as [Hm _].
      cbn. now rewrite Hm.
    + exfalso. apply getFieldError_None in G. apply G.
      cbn. now left.
Qed.

(** ** Trying again *)

(** X18.  A submission that does not succeed keeps what the user typed,
    and a failed email call can simply be retried: the failed attempt
    hands no lead to [addLead], and a second attempt whose call succeeds
    makes the calls and leaves the state that a first successful attempt
    would have. *)
Theorem failed_submit_can_be_retried s out now now' :
  (validateLeadForm (formData s) <> [] \/ out <> Resolved None ->
   formData (fst (submit s out now)) = formData s)
  /\ (validateLeadForm (formData s) = [] ->
      out <> Resolved None ->
      added_leads (snd (submit s out now)) = []
      /\ submit (fst (submit s out now)) (Resolved None) now'
         = submit s (Resolved None) now').
Proof.
  split.
  - intros H. rewrite submit_state.
    destruct (validateLeadForm (formData s)) as [|e errs];
      [|reflexivity].
    destruct H as [H|H]; [congruence|].
    destruct out as [[err|]|exn]; try reflexivity; congruence.
  - intros Hvalid Hout.
    assert (Hfirst : fst (submit s out now)
                     = mkState (formData s) [] FieldStates.all_touched false
                         (store s)
                     /\ added_leads (snd (submit s out now)) = []).
    { destruct out as [[err|]|exn]; [|congruence|].
      - now rewrite submit_returned_error.
      - now rewrite submit_thrown. }
    destruct Hfirst as [Hfirst Hnone]. split; [exact Hnone|].
    rewrite Hfirst. now rewrite !submit_success.
Qed.

End Behaviour.

(** ** The further properties on concrete forms *)

Lemma sample_displayable d : Forall displayable (sample_validateLeadForm d).
Proof.
  assert (H : forall f, Forall displayable (sample_field_errors d f)).
  { intros f. unfold sample_field_errors.
    destruct (validateField_shape sample_validateName sample_validateEmail f
                (FormData.get f d)) as [Hshape _].
    destruct (validateField sample_validateName sample_validateEmail (key f)
                (FormData.get f d)) as [[|] msg]; cbn in *; constructor;
      [|constructor].
    split; [|now exists f]. cbn.
    destruct (JS.truthy msg); [reflexivity|discriminate Hshape]. }
  unfold sample_validateLeadForm. repeat (apply Forall_app; split); apply H.
Qed.

Lemma getFieldError_finds_entry_witness :
  one_per_field (validationErrors stale)
  /\ getFieldError (validationErrors stale) "email" = Some "Email is required".
Proof.
  assert (H : one_per_field (validationErrors stale))
    by (repeat constructor; cbn; intuition discriminate).
  split; [exact H|].
  apply (getFieldError_finds_entry (validationErrors stale)
           (mkError "email" "Email is required") H).
  cbn. tauto.
Defined.

Lemma validateField_blank_is_required_witness :
  JS.all_white_space blank_value = true
  /\ validateField sample_validateName sample_validateEmail "industry"
       blank_value
     = (false, "Please select your industry").
Proof.
  split; [reflexivity|].
  apply (validateField_blank_is_required sample_validateName
           sample_validateEmail blank_value eq_refl).
Defined.

Lemma handleInputChange_leaves_other_fields_witness :
  EmailField <> NameField
  /\ render_field
       (fst (run (handleInputChange sample_validateName sample_validateEmail
                    NameField "Ada Lovelace") stale)) EmailField
     = render_field stale EmailField.
Proof.
  assert (H : EmailField <> NameField) by discriminate.
  split; [exact H|].
  apply (handleInputChange_leaves_other_fields sample_validateName
           sample_validateEmail stale NameField EmailField "Ada Lovelace" H).
Defined.

Lemma valid_edits_clear_errors_witness :
  Forall (fun e => exists f, field e = key f) (validationErrors stale)
  /\ validationErrors
       (fst (exec sample_validateLeadForm sample_validateName
               sample_validateEmail stale
               [Change NameField "Ada Lovelace";
                Change EmailField "ada@example.org";
                Change IndustryField "technology"])) = [].
Proof.
  assert (H : Forall (fun e => exists f, field e = key f)
                (validationErrors stale)).
  { repeat constructor; [now exists NameField|now exists EmailField]. }
  split; [exact H|].
  apply (valid_edits_clear_errors sample_validateLeadForm sample_validateName
           sample_validateEmail stale "Ada Lovelace" "ada@example.org"
           "technology" H eq_refl eq_refl eq_refl).
Defined.

Lemma unsuccessful_submit_marks_every_field_witness :
  (sample_validateLeadForm (formData page_load) <> []
   \/ Resolved None <> Resolved None)
  /\ getFieldState
       (fst (submit sample_validateLeadForm page_load (Resolved None) ""))
       IndustryField <> default_state.
Proof.
  assert (H : sample_validateLeadForm (formData page_load) <> []
              \/ Resolved None <> Resolved None)
    by (left; vm_compute; discriminate).
  split; [exact H|].
  apply (unsuccessful_submit_marks_every_field sample_validateLeadForm
           page_load (Resolved None) "" IndustryField H).
Defined.

Lemma resetForm_is_fresh_mount_witness :
  isSubmitting
    (fst (submit sample_validateLeadForm filled (Resolved None)
            "2025-01-01T00:00:00.000Z")) = false
  /\ length
       (sessionLeads
          (fst (run resetForm
                  (fst (submit sample_validateLeadForm filled (Resolved None)
                          "2025-01-01T00:00:00.000Z"))))) = 1.
Proof.
  split; [reflexivity|].
  rewrite (proj1 (proj2 (resetForm_is_fresh_mount
                           (fst (submit sample_validateLeadForm filled
                                   (Resolved None) "2025-01-01T00:00:00.000Z"))
                           eq_refl))).
  reflexivity.
Defined.

Lemma success_view_counts_the_lead_witness :
  sample_validateLeadForm (formData filled) = []
  /\ render
       (fst (submit sample_validateLeadForm filled (Resolved None)
               "2025-01-01T00:00:00.000Z")) = SuccessView 1.
Proof.
  split; [reflexivity|].
  apply (success_view_counts_the_lead sample_validateLeadForm filled
           "2025-01-01T00:00:00.000Z" eq_refl).
Defined.

Example confirmed_submissions_of_a_retry :
  added_leads
    (snd (exec sample_validateLeadForm sample_validateName sample_validateEmail
            filled
            [Submit (Rejected "down") "t0"; Submit (Resolved None) "t1"]))
  = [Lead.mk "Ada Lovelace" "ada@example.org" "technology" "t1"].
Proof. reflexivity. Qed.

Lemma errors_are_visible_witness :
  (forall d, Forall displayable (sample_validateLeadForm d))
  /\ reachable sample_validateLeadForm sample_validateName
       sample_validateEmail typing
  /\ Forall displayable (validationErrors typing).
Proof.
  assert (H : reachable sample_validateLeadForm sample_validateName
                sample_validateEmail typing)
    by (apply reachable_exec; constructor).
  split; [exact sample_displayable|]. split; [exact H|].
  apply (proj1 (errors_are_visible sample_validateLeadForm sample_validateName
                  sample_validateEmail typing sample_displayable H)).
Defined.
